(** * Verification of the two Django views of [api/views.py]

    The module under study defines two request handlers:

    - [home], which answers with a greeting, a status literal and the local
      wall-clock time rendered by [datetime.now().isoformat()];
    - [health], which answers with a constant liveness payload.

    The handlers are embedded over a small state-and-exception monad.  The
    library calls they make ([datetime.now], [datetime.isoformat],
    [JsonResponse], [json.dumps]) are embedded after the CPython and Django
    sources they resolve to, so that the bytes of each response are computed,
    not postulated. *)

From Stdlib Require Import ZArith List String Ascii Bool Lia.
Import ListNotations.

Open Scope string_scope.
Open Scope Z_scope.

(** ** Characters and decimal formatting *)

Module Text.

(** The double quote, written by its decimal code. *)
Definition dquote : ascii := "034"%char.

Definition code (c : ascii) : Z := Z.of_N (N_of_ascii c).

Definition chr (n : Z) : ascii := ascii_of_N (Z.to_N n).

Definition is_digit (c : ascii) : bool := (48 <=? code c) && (code c <=? 57).

Definition digit_char (d : Z) : ascii := chr (48 + d).

Definition digit_val (c : ascii) : Z := code c - 48.

Fixpoint zeros (k : nat) : string :=
  match k with
  | O => EmptyString
  | S k' => String "0" (zeros k')
  end.

(** Decimal digits of a non-negative integer, most significant first.  The
    fuel bounds the number of digits. *)
Fixpoint digits_aux (fuel : nat) (n : Z) (acc : string) : string :=
  match fuel with
  | O => acc
  | S f =>
      let acc' := String (digit_char (n mod 10)) acc in
      if n / 10 =? 0 then acc' else digits_aux f (n / 10) acc'
  end.

Definition str_nat (n : Z) : string :=
  digits_aux (S (Z.to_nat (Z.log2 n))) n EmptyString.

(** Python's [str(n)] for an [int]. *)
Definition str_int (n : Z) : string :=
  if n <? 0 then String "-" (str_nat (Z.abs n)) else str_nat n.

(** Python's ["%0<width>d" % n] (and ["{:0<width>d}".format(n)]): the sign
    counts towards the width, and a number wider than [width] is printed in
    full. *)
Definition format_0d (width : nat) (n : Z) : string :=
  let ds := str_nat (Z.abs n) in
  if n <? 0
  then String "-" (zeros (width - 1 - length ds) ++ ds)
  else zeros (width - length ds) ++ ds.

(** The [k] low decimal digits of [n], used to reason about [format_0d]. *)
Fixpoint fixed (k : nat) (n : Z) : string :=
  match k with
  | O => EmptyString
  | S k' => fixed k' (n / 10) ++ String (digit_char (n mod 10)) EmptyString
  end.

Fixpoint all_chars (p : ascii -> bool) (s : string) : bool :=
  match s with
  | EmptyString => true
  | String c r => p c && all_chars p r
  end.

Fixpoint last_char (s : string) : option ascii :=
  match s with
  | EmptyString => None
  | String c EmptyString => Some c
  | String _ r => last_char r
  end.

Fixpoint mem_char (c : ascii) (s : string) : bool :=
  match s with
  | EmptyString => false
  | String d r => Ascii.eqb c d || mem_char c r
  end.

End Text.

(** ** The [datetime] module *)

Module Datetime.
Import Text.

(** [timedelta], normalised as CPython does: [0 <= seconds < 86400] and
    [0 <= microseconds < 1000000]. *)
Record timedelta : Set := mk_timedelta_raw {
  days : Z;
  seconds : Z;
  microseconds : Z
}.

Definition timedelta_of_us (us : Z) : timedelta :=
  {| days := us / 86400000000;
     seconds := (us mod 86400000000) / 1000000;
     microseconds := us mod 1000000 |}.

(** [timedelta(days, seconds, microseconds)]. *)
Definition mk_timedelta (d s us : Z) : timedelta :=
  timedelta_of_us ((d * 86400 + s) * 1000000 + us).

Definition total_us (td : timedelta) : Z :=
  (days td * 86400 + seconds td) * 1000000 + microseconds td.

Definition timedelta_eqb (a b : timedelta) : bool :=
  (days a =? days b) && (seconds a =? seconds b)
  && (microseconds a =? microseconds b).

(** A [datetime] object.  [tzinfo] is [None] for a naive value and carries
    the fixed UTC offset of an aware one. *)
Record datetime : Set := mk_datetime {
  year : Z;
  month : Z;
  day : Z;
  hour : Z;
  minute : Z;
  second : Z;
  microsecond : Z;
  tzinfo : option timedelta;
  fold : bool
}.

Definition utcoffset (dt : datetime) : option timedelta := tzinfo dt.

(** [_is_leap]. *)
Definition is_leap (y : Z) : bool :=
  (y mod 4 =? 0) && (negb (y mod 100 =? 0) || (y mod 400 =? 0)).

(** [_DAYS_IN_MONTH], looked up for [1 <= month <= 12]. *)
Definition DAYS_IN_MONTH (m : Z) : Z :=
  match m with
  | 1 => 31 | 2 => 28 | 3 => 31 | 4 => 30 | 5 => 31 | 6 => 30
  | 7 => 31 | 8 => 31 | 9 => 30 | 10 => 31 | 11 => 30 | 12 => 31
  | _ => 0
  end.

(** [_DAYS_BEFORE_MONTH]. *)
Definition DAYS_BEFORE_MONTH (m : Z) : Z :=
  match m with
  | 1 => 0 | 2 => 31 | 3 => 59 | 4 => 90 | 5 => 120 | 6 => 151
  | 7 => 181 | 8 => 212 | 9 => 243 | 10 => 273 | 11 => 304 | 12 => 334
  | _ => 0
  end.

(** [_days_in_month]. *)
Definition days_in_month (y m : Z) : Z :=
  if (m =? 2) && is_leap y then 29 else DAYS_IN_MONTH m.

(** [_days_before_year]. *)
Definition days_before_year (y : Z) : Z :=
  let y' := y - 1 in
  y' * 365 + y' / 4 - y' / 100 + y' / 400.

(** [_days_before_month]. *)
Definition days_before_month (y m : Z) : Z :=
  DAYS_BEFORE_MONTH m + (if (2 <? m) && is_leap y then 1 else 0).

(** [_ymd2ord]. *)
Definition ymd2ord (y m d : Z) : Z :=
  days_before_year y + days_before_month y m + d.

Definition toordinal (dt : datetime) : Z :=
  ymd2ord (year dt) (month dt) (day dt).

(** [_check_date_fields] and [_check_time_fields]: the ranges every
    constructed [datetime] satisfies. *)
Definition check_date_fields (y m d : Z) : bool :=
  (1 <=? y) && (y <=? 9999) && (1 <=? m) && (m <=? 12)
  && (1 <=? d) && (d <=? days_in_month y m).

Definition check_time_fields (h mi s us : Z) : bool :=
  (0 <=? h) && (h <=? 23) && (0 <=? mi) && (mi <=? 59)
  && (0 <=? s) && (s <=? 59) && (0 <=? us) && (us <=? 999999).

Definition valid_datetime (dt : datetime) : bool :=
  check_date_fields (year dt) (month dt) (day dt)
  && check_time_fields (hour dt) (minute dt) (second dt) (microsecond dt).

(** [_format_time] with [timespec='auto']: the fraction is printed only
    when the microsecond field is not zero. *)
Definition format_time (h mi s us : Z) : string :=
  format_0d 2 h ++ ":" ++ format_0d 2 mi ++ ":" ++ format_0d 2 s
  ++ (if us =? 0 then "" else "." ++ format_0d 6 us).

(** [_format_offset]. *)
Definition format_offset (off : option timedelta) : string :=
  match off with
  | None => ""
  | Some td =>
      let sign := if days td <? 0 then "-" else "+" in
      let us := Z.abs (total_us td) in
      let hh := us / 3600000000 in
      let r := us mod 3600000000 in
      let mm := r / 60000000 in
      let ss := r mod 60000000 in
      sign ++ format_0d 2 hh ++ ":" ++ format_0d 2 mm
      ++ (if ss =? 0 then ""
          else ":" ++ format_0d 2 (ss / 1000000)
               ++ (if ss mod 1000000 =? 0 then ""
                   else "." ++ format_0d 6 (ss mod 1000000)))
  end.

(** [datetime.isoformat(sep='T', timespec='auto')]. *)
Definition isoformat (dt : datetime) : string :=
  format_0d 4 (year dt) ++ "-" ++ format_0d 2 (month dt) ++ "-"
  ++ format_0d 2 (day dt) ++ "T"
  ++ format_time (hour dt) (minute dt) (second dt) (microsecond dt)
  ++ format_offset (utcoffset dt).

(** [dt.replace(fold=f)]. *)
Definition replace_fold (dt : datetime) (f : bool) : datetime :=
  {| year := year dt; month := month dt; day := day dt;
     hour := hour dt; minute := minute dt; second := second dt;
     microsecond := microsecond dt; tzinfo := tzinfo dt; fold := f |}.

Definition day_seconds (dt : datetime) : Z :=
  second dt + minute dt * 60 + hour dt * 3600.

Definition timedelta_add (a b : timedelta) : timedelta :=
  timedelta_of_us (total_us a + total_us b).

Definition timedelta_sub (a b : timedelta) : timedelta :=
  timedelta_of_us (total_us a - total_us b).

Definition option_timedelta_eqb (a b : option timedelta) : bool :=
  match a, b with
  | None, None => true
  | Some x, Some y => timedelta_eqb x y
  | _, _ => false
  end.

(** The instant of a naive value on the proleptic calendar, in
    microseconds: what [datetime.__sub__] measures differences of. *)
Definition position (dt : datetime) : Z :=
  (toordinal dt * 86400 + day_seconds dt) * 1000000 + microsecond dt.

(** [datetime.__sub__] on two datetimes.  [None] is the [TypeError] raised
    when a naive and an aware value are mixed. *)
Definition datetime_sub (a b : datetime) : option timedelta :=
  let base := mk_timedelta (toordinal a - toordinal b)
                           (day_seconds a - day_seconds b)
                           (microsecond a - microsecond b) in
  if option_timedelta_eqb (utcoffset a) (utcoffset b) then Some base
  else match utcoffset a, utcoffset b with
       | Some myoff, Some otoff =>
           Some (timedelta_sub (timedelta_add base otoff) myoff)
       | _, _ => None
       end.

Definition lex (c : comparison) (k : comparison) : comparison :=
  match c with
  | Eq => k
  | _ => c
  end.

(** [_cmp] on the tuples
    [(year, month, day, hour, minute, second, microsecond)]. *)
Definition fields_cmp (a b : datetime) : comparison :=
  lex (year a ?= year b)
  (lex (month a ?= month b)
  (lex (day a ?= day b)
  (lex (hour a ?= hour b)
  (lex (minute a ?= minute b)
  (lex (second a ?= second b)
       (microsecond a ?= microsecond b)))))).

(** [datetime._cmp]; [None] is the [TypeError] of an ordering comparison
    between a naive and an aware value. *)
Definition datetime_cmp (a b : datetime) : option comparison :=
  if option_timedelta_eqb (utcoffset a) (utcoffset b)
  then Some (fields_cmp a b)
  else match datetime_sub a b with
       | None => None
       | Some diff =>
           if days diff <? 0 then Some Lt
           else if total_us diff =? 0 then Some Eq else Some Gt
       end.

(** [a < b]. *)
Definition datetime_lt (a b : datetime) : option bool :=
  match datetime_cmp a b with
  | Some Lt => Some true
  | Some _ => Some false
  | None => None
  end.

(** *** Reading ISO-8601 text back

    [fromisoformat] is the reading direction used to state that a timestamp
    "parses".  It accepts the two shapes [isoformat] gives a naive value,
    [YYYY-MM-DDTHH:MM:SS] and [YYYY-MM-DDTHH:MM:SS.ffffff], checks the field
    ranges as the [datetime] constructor does, and rejects everything else;
    on the strings it accepts it agrees with [datetime.fromisoformat]. *)

Fixpoint parse_digits (k : nat) (s : string) (acc : Z) : option (Z * string) :=
  match k with
  | O => Some (acc, s)
  | S k' =>
      match s with
      | EmptyString => None
      | String c r =>
          if is_digit c then parse_digits k' r (acc * 10 + digit_val c)
          else None
      end
  end.

Definition expect (c : ascii) (s : string) : option string :=
  match s with
  | EmptyString => None
  | String d r => if Ascii.eqb c d then Some r else None
  end.

Definition parse_fraction (s : string) : option Z :=
  match s with
  | EmptyString => Some 0
  | String c r =>
      if Ascii.eqb c "." then
        match parse_digits 6 r 0 with
        | Some (us, EmptyString) => Some us
        | _ => None
        end
      else None
  end.

Definition field (k : nat) (sep : option ascii) (s : string)
  : option (Z * string) :=
  match parse_digits k s 0 with
  | None => None
  | Some (v, r) =>
      match sep with
      | None => Some (v, r)
      | Some c =>
          match expect c r with
          | Some r' => Some (v, r')
          | None => None
          end
      end
  end.

Definition fromisoformat (s : string) : option datetime :=
  match field 4 (Some "-"%char) s with None => None | Some (y, s1) =>
  match field 2 (Some "-"%char) s1 with None => None | Some (m, s2) =>
  match field 2 (Some "T"%char) s2 with None => None | Some (d, s3) =>
  match field 2 (Some ":"%char) s3 with None => None | Some (h, s4) =>
  match field 2 (Some ":"%char) s4 with None => None | Some (mi, s5) =>
  match field 2 None s5 with None => None | Some (sec, s6) =>
  match parse_fraction s6 with None => None | Some us =>
    let dt := mk_datetime y m d h mi sec us None false in
    if valid_datetime dt then Some dt else None
  end end end end end end end.

(** *** The local wall clock

    A reading of the local clock, as [datetime.now()] obtains it from the
    platform: broken-down local time, the microsecond, and the [fold] bit
    that tells the two passes through a repeated hour apart. *)
Record wallclock : Set := mk_wallclock {
  wc_year : Z;
  wc_month : Z;
  wc_day : Z;
  wc_hour : Z;
  wc_minute : Z;
  wc_second : Z;
  wc_microsecond : Z;
  wc_fold : bool
}.

(** The value [datetime.now()] builds from a reading: no [tz] argument is
    passed, so the result has [tzinfo = None]. *)
Definition naive (c : wallclock) : datetime :=
  {| year := wc_year c; month := wc_month c; day := wc_day c;
     hour := wc_hour c; minute := wc_minute c; second := wc_second c;
     microsecond := wc_microsecond c; tzinfo := None; fold := wc_fold c |}.

Definition valid_wallclock (c : wallclock) : bool := valid_datetime (naive c).

(** The text [isoformat] gives a naive value whose fields are in range:
    every field at its fixed width. *)
Definition iso_text (c : wallclock) : string :=
  fixed 4 (wc_year c) ++ "-" ++ fixed 2 (wc_month c) ++ "-"
  ++ fixed 2 (wc_day c) ++ "T" ++ fixed 2 (wc_hour c) ++ ":"
  ++ fixed 2 (wc_minute c) ++ ":" ++ fixed 2 (wc_second c)
  ++ (if wc_microsecond c =? 0 then ""
      else "." ++ fixed 6 (wc_microsecond c)).

End Datetime.

(** ** The [json] encoder *)

Module Json.
Import Text.

(** The values [json.dumps] is applied to.  A [dict] is kept as the list of
    its items in insertion order, which is the order [json.dumps] emits. *)
#[local] Unset Elimination Schemes.
Inductive json : Type :=
| JNull
| JBool (b : bool)
| JInt (n : Z)
| JStr (s : string)
| JList (l : list json)
| JDict (d : list (string * json)).
#[local] Set Elimination Schemes.

Definition hex_char (n : Z) : ascii :=
  if n <? 10 then chr (48 + n) else chr (87 + n).

(** [ESCAPE_ASCII] replacement of one character ([ensure_ascii=True]):
    the short escapes of [ESCAPE_DCT], the printable range [' '..'~'] kept
    as it is, and [\uXXXX] for the rest.  A character is a code point below
    256. *)
Definition escape_char (c : ascii) : string :=
  let n := code c in
  if n =? 92 then "\\"
  else if n =? 34 then String "\" (String dquote "")
  else if n =? 8 then "\b"
  else if n =? 12 then "\f"
  else if n =? 10 then "\n"
  else if n =? 13 then "\r"
  else if n =? 9 then "\t"
  else if (32 <=? n) && (n <=? 126) then String c ""
  else "\u00" ++ String (hex_char (n / 16)) (String (hex_char (n mod 16)) "").

Fixpoint escape (s : string) : string :=
  match s with
  | EmptyString => EmptyString
  | String c r => escape_char c ++ escape r
  end.

(** [py_encode_basestring_ascii]. *)
Definition encode_basestring_ascii (s : string) : string :=
  String dquote (escape s ++ String dquote "").

(** The elements of a [list] and the items of a [dict], joined by the
    item separator [', ']; the key separator is [': ']. *)
Definition dumps_elems (dumps : json -> string) : list json -> string :=
  fix elems (l : list json) : string :=
    match l with
    | [] => ""
    | x :: r =>
        dumps x ++ match r with [] => "" | _ :: _ => ", " ++ elems r end
    end.

Definition dumps_items (dumps : json -> string)
  : list (string * json) -> string :=
  fix items (d : list (string * json)) : string :=
    match d with
    | [] => ""
    | (k, v) :: r =>
        encode_basestring_ascii k ++ ": " ++ dumps v
        ++ match r with [] => "" | _ :: _ => ", " ++ items r end
    end.

(** [json.dumps] with the default separators [(', ', ': ')]. *)
Fixpoint json_dumps (j : json) : string :=
  match j with
  | JNull => "null"
  | JBool true => "true"
  | JBool false => "false"
  | JInt n => str_int n
  | JStr s => encode_basestring_ascii s
  | JList l => "[" ++ dumps_elems json_dumps l ++ "]"
  | JDict d => "{" ++ dumps_items json_dumps d ++ "}"
  end.

Definition is_dict (j : json) : bool :=
  match j with
  | JDict _ => true
  | _ => false
  end.

(** A [dict] whose values are all [str]. *)
Definition str_dict (kvs : list (string * string)) : json :=
  JDict (map (fun kv => (fst kv, JStr (snd kv))) kvs).

(** *** Reading a response body back

    [json_loads_flat] is the reading direction used to state what a body
    "contains": a decoder for JSON objects whose members are all strings,
    written as a single pass over the text.  It follows [json.loads]
    ([strict=True]) on that fragment; a text outside the fragment, or a
    [\uXXXX] escape of 256 or more, gives [None]. *)

Inductive slot : Type :=
| SKey
| SVal (key : string).

Inductive pstate : Type :=
| PStart
| PFirst
| PKey
| PStr (sl : slot) (acc : string)
| PEsc (sl : slot) (acc : string)
| PHex (sl : slot) (acc : string) (todo : nat) (v : Z)
| PColon (key : string)
| PValue (key : string)
| PNext
| PEnd.

Definition is_ws (c : ascii) : bool :=
  let n := code c in (n =? 32) || (n =? 9) || (n =? 10) || (n =? 13).

Definition hex_val (c : ascii) : option Z :=
  let n := code c in
  if (48 <=? n) && (n <=? 57) then Some (n - 48)
  else if (97 <=? n) && (n <=? 102) then Some (n - 87)
  else if (65 <=? n) && (n <=? 70) then Some (n - 55)
  else None.

Definition snoc (s : string) (c : ascii) : string := s ++ String c "".

(** What a closed string literal becomes: a key waits for its colon, a
    value completes a member. *)
Definition close_str (sl : slot) (acc : string)
    (items : list (string * string)) : pstate * list (string * string) :=
  match sl with
  | SKey => (PColon acc, items)
  | SVal k => (PNext, (k, acc) :: items)
  end.

Definition unescape (c : ascii) : option ascii :=
  let n := code c in
  if n =? 34 then Some dquote
  else if n =? 92 then Some "\"%char
  else if n =? 47 then Some "/"%char
  else if n =? 98 then Some "008"%char
  else if n =? 102 then Some "012"%char
  else if n =? 110 then Some "010"%char
  else if n =? 114 then Some "013"%char
  else if n =? 116 then Some "009"%char
  else None.

Definition step (st : pstate) (items : list (string * string)) (c : ascii)
  : option (pstate * list (string * string)) :=
  match st with
  | PStart =>
      if is_ws c then Some (PStart, items)
      else if code c =? 123 then Some (PFirst, items) else None
  | PFirst =>
      if is_ws c then Some (PFirst, items)
      else if code c =? 34 then Some (PStr SKey "", items)
      else if code c =? 125 then Some (PEnd, items) else None
  | PKey =>
      if is_ws c then Some (PKey, items)
      else if code c =? 34 then Some (PStr SKey "", items) else None
  | PStr sl acc =>
      if code c =? 34 then Some (close_str sl acc items)
      else if code c =? 92 then Some (PEsc sl acc, items)
      else if code c <? 32 then None
      else Some (PStr sl (snoc acc c), items)
  | PEsc sl acc =>
      if code c =? 117 then Some (PHex sl acc 4 0, items)
      else match unescape c with
           | Some d => Some (PStr sl (snoc acc d), items)
           | None => None
           end
  | PHex sl acc todo v =>
      match hex_val c with
      | None => None
      | Some h =>
          let v' := v * 16 + h in
          match todo with
          | O => None
          | S O => if v' <? 256 then Some (PStr sl (snoc acc (chr v')), items)
                   else None
          | S l' => Some (PHex sl acc l' v', items)
          end
      end
  | PColon k =>
      if is_ws c then Some (PColon k, items)
      else if code c =? 58 then Some (PValue k, items) else None
  | PValue k =>
      if is_ws c then Some (PValue k, items)
      else if code c =? 34 then Some (PStr (SVal k) "", items) else None
  | PNext =>
      if is_ws c then Some (PNext, items)
      else if code c =? 44 then Some (PKey, items)
      else if code c =? 125 then Some (PEnd, items) else None
  | PEnd => if is_ws c then Some (PEnd, items) else None
  end.

Fixpoint loads_run (st : pstate) (items : list (string * string))
    (s : string) : option (list (string * string)) :=
  match s with
  | EmptyString =>
      match st with
      | PEnd => Some (rev items)
      | _ => None
      end
  | String c r =>
      match step st items c with
      | Some (st', items') => loads_run st' items' r
      | None => None
      end
  end.

Definition json_loads_flat (s : string) : option (list (string * string)) :=
  loads_run PStart [] s.

(** [d.get(key)] on the decoded object; like a Python [dict], a repeated
    key keeps its last value. *)
Fixpoint lookup (key : string) (kvs : list (string * string))
  : option string :=
  match kvs with
  | [] => None
  | (k, v) :: r =>
      match lookup key r with
      | Some v' => Some v'
      | None => if String.eqb key k then Some v else None
      end
  end.

(** The members of a [dict] of strings, as [json.dumps] writes them. *)
Fixpoint dump_items (kvs : list (string * string)) : string :=
  match kvs with
  | [] => ""
  | (k, v) :: r =>
      encode_basestring_ascii k ++ ": " ++ encode_basestring_ascii v
      ++ match r with [] => "" | _ :: _ => ", " ++ dump_items r end
  end.

(** The states in which the reader expects the opening quote of a key. *)
Definition expects_key (st : pstate) : Prop := st = PFirst \/ st = PKey.

End Json.

(** ** Requests, responses and the effects of a view *)

Module Http.
Import Text Json.

(** What a view is handed.  The views below never inspect it. *)
Record HttpRequest : Type := mk_request {
  method : string;
  path : string;
  headers : list (string * string);
  body : string
}.

(** What a view hands back: [HttpResponse.status_code], the
    [Content-Type] header and the encoded body. *)
Record HttpResponse : Type := mk_response {
  status_code : Z;
  content_type : string;
  content : string
}.

Inductive exn : Type :=
| OSError
| TypeError.

Inductive result (A : Type) : Type :=
| Ok (a : A)
| Raise (e : exn).

Arguments Ok {A} a.
Arguments Raise {A} e.

Section Effects.

(** Everything a view could reach besides its argument: the local clock,
    and [Env], the rest of the process and of the outside world (database,
    files, module globals).  [clock = None] is a clock that cannot be read:
    [datetime.now()] raises. *)
Variable Env : Type.

Record World : Type := mk_world {
  clock : option Datetime.wallclock;
  env : Env
}.

(** A computation reads and may replace the world, and returns a value or
    raises. *)
Definition M (A : Type) : Type := World -> result A * World.

Definition ret {A : Type} (a : A) : M A := fun w => (Ok a, w).

Definition raise {A : Type} (e : exn) : M A := fun w => (Raise e, w).

Definition bind {A B : Type} (m : M A) (k : A -> M B) : M B :=
  fun w =>
    match m w with
    | (Ok a, w') => k a w'
    | (Raise e, w') => (Raise e, w')
    end.

(** [datetime.now()]: the reading wrapped as a naive [datetime]; a failed
    read propagates as an exception. *)
Definition datetime_now : M Datetime.datetime :=
  fun w =>
    match clock w with
    | Some c => (Ok (Datetime.naive c), w)
    | None => (Raise OSError, w)
    end.

(** [JsonResponse(data)] with its defaults ([safe=True], status 200,
    content type [application/json]): anything but a [dict] is refused with
    [TypeError], a [dict] is encoded by [json.dumps]. *)
Definition JsonResponse (data : json) : M HttpResponse :=
  if is_dict data
  then ret {| status_code := 200;
              content_type := "application/json";
              content := json_dumps data |}
  else raise TypeError.

End Effects.

Arguments clock {Env} _.
Arguments env {Env} _.
Arguments mk_world {Env} _ _.
Arguments ret {Env A} _ _.
Arguments raise {Env A} _ _.
Arguments bind {Env A B} _ _ _.
Arguments datetime_now {Env} _.
Arguments JsonResponse {Env} _ _.

End Http.

Import Text Datetime Json Http.

Notation "x <- m ;; k" := (bind m (fun x => k))
  (at level 61, m at next level, right associativity).

(** ** [api/views.py] *)

Module Views.

Section Handlers.
Context {Env : Type}.

Definition home (request : HttpRequest) : M Env HttpResponse :=
  now <- datetime_now ;;
  JsonResponse (JDict [
    ("message", JStr "Hello from DevOps Stage 1 - Django!");
    ("status", JStr "success");
    ("timestamp", JStr (isoformat now))
  ]).

Definition health (request : HttpRequest) : M Env HttpResponse :=
  JsonResponse (JDict [("status", JStr "healthy")]).

End Handlers.

End Views.

Import Views.

(** ** Observations on responses and a driver for repeated calls *)

Module Observe.

(** The decoded body of a response, as [response.json()] gives it. *)
Definition body_of (r : HttpResponse) : option (list (string * string)) :=
  json_loads_flat (content r).

Definition field_of (key : string) (r : HttpResponse) : option string :=
  match body_of r with
  | Some kvs => lookup key kvs
  | None => None
  end.

(** A body with the value under [key] blanked: two bodies with the same
    redaction have the same keys in the same order and agree everywhere but
    under [key]. *)
Definition redact (key : string) (kvs : list (string * string))
  : list (string * string) :=
  map (fun kv => if String.eqb (fst kv) key then (fst kv, "") else kv) kvs.

Definition same_but (key : string) (r1 r2 : HttpResponse) : Prop :=
  status_code r1 = status_code r2
  /\ content_type r1 = content_type r2
  /\ exists b1 b2,
       body_of r1 = Some b1 /\ body_of r2 = Some b2
       /\ redact key b1 = redact key b2.

(** Every decimal digit replaced by ['0']: the layout of a text. *)
Fixpoint mask (s : string) : string :=
  match s with
  | EmptyString => EmptyString
  | String c r => String (if is_digit c then "0"%char else c) (mask r)
  end.

Definition seconds_layout : string := "0000-00-00T00:00:00".
Definition micros_layout : string := "0000-00-00T00:00:00.000000".

(** Date, ['T'], time and a six-digit fraction, as in
    [2024-01-01T12:00:00.000000]. *)
Definition iso_with_fraction (s : string) : bool :=
  String.eqb (mask s) micros_layout.

(** Date, ['T'] and time to the second, as in [2024-01-01T12:00:00]. *)
Definition iso_to_seconds (s : string) : bool :=
  String.eqb (mask s) seconds_layout.

Fixpoint ends_with (suffix s : string) : bool :=
  String.eqb suffix s
  || match s with
     | EmptyString => false
     | String _ r => ends_with suffix r
     end.

(** A trailing timezone designator: ['Z'], or a UTC offset [+hh:mm] or
    [-hh:mm], possibly followed by the seconds and microseconds that
    [isoformat] prints for an offset that has them. *)
Definition has_tz_designator (s : string) : bool :=
  let m := mask s in
  ends_with "Z" m
  || existsb (fun sign =>
       existsb (fun tail => ends_with (sign ++ tail) m)
               ["00:00"; "00:00:00"; "00:00:00.000000"])
     ["+"; "-"].

(** Names for what the lemmas below show the views to answer: the two
    bodies, and the envelope [JsonResponse] puts around a [dict] of
    strings.  The views themselves are defined in [Views], not through
    these. *)
Definition greeting_body (ts : string) : list (string * string) :=
  [("message", "Hello from DevOps Stage 1 - Django!");
   ("status", "success");
   ("timestamp", ts)].

Definition health_body : list (string * string) := [("status", "healthy")].

Definition json_response (kvs : list (string * string)) : HttpResponse :=
  {| status_code := 200;
     content_type := "application/json";
     content := json_dumps (str_dict kvs) |}.

(** Sample readings and requests: noon sharp, and the two sides of the
    turn of the year 2025, half a second off the full second. *)
Definition noon : wallclock := mk_wallclock 2024 1 1 12 0 0 0 false.

Definition new_year_eve : wallclock :=
  mk_wallclock 2024 12 31 23 59 59 500000 false.

Definition new_year : wallclock := mk_wallclock 2025 1 1 0 0 0 500000 true.

Definition get_root : HttpRequest := mk_request "GET" "/" [] "".

Definition post_health : HttpRequest :=
  mk_request "POST" "/health" [("Content-Type", "text/plain")] "ping".

(** The text [s] between double quotes. *)
Definition quoted (s : string) : string :=
  String dquote (s ++ String dquote "").

Inductive endpoint : Type :=
| Greeting
| Health.

Record invocation : Type := mk_invocation {
  target : endpoint;
  request : HttpRequest;
  reading : option wallclock
}.

Section Driver.
Context {Env : Type}.

Definition view (e : endpoint) : HttpRequest -> M Env HttpResponse :=
  match e with
  | Greeting => home
  | Health => health
  end.

(** Time passes between calls: before each one the clock shows that call's
    reading.  Nothing else is touched by the driver. *)
Definition set_clock (r : option wallclock) (w : World Env) : World Env :=
  {| clock := r; env := env w |}.

Fixpoint serve (invs : list invocation) (w : World Env)
  : list (result HttpResponse) * World Env :=
  match invs with
  | [] => ([], w)
  | i :: rest =>
      let (r, w1) := view (target i) (request i) (set_clock (reading i) w) in
      let (rs, w2) := serve rest w1 in
      (r :: rs, w2)
  end.

End Driver.

End Observe.

Import Observe.

(** ** The text on the wire *)

Module Wire.

(** The printable ASCII range [' '..'~']. *)
Definition printable (c : ascii) : bool :=
  (32 <=? code c) && (code c <=? 126).

(** The characters [json.dumps] copies into a literal as they are:
    printable, and neither the double quote nor the backslash. *)
Definition plain (c : ascii) : bool :=
  printable c && negb (code c =? 34) && negb (code c =? 92).

(** The body of a greeting whose timestamp is [ts], as it is sent. *)
Definition greeting_text (ts : string) : string :=
  "{" ++ quoted "message" ++ ": "
  ++ quoted "Hello from DevOps Stage 1 - Django!" ++ ", "
  ++ quoted "status" ++ ": " ++ quoted "success" ++ ", "
  ++ quoted "timestamp" ++ ": " ++ quoted ts ++ "}".


End Wire.

Import Wire.

(** * Properties *)

(** ** Strings and decimal text *)

Module TextFacts.

Lemma append_assoc (a b c : string) : (a ++ b) ++ c = a ++ (b ++ c).
Proof.
  induction a as [|x a IH]; simpl; [reflexivity | now rewrite IH].
Qed.

Lemma append_nil_r (a : string) : a ++ "" = a.
Proof.
  induction a as [|x a IH]; simpl; [reflexivity | now rewrite IH].
Qed.

Lemma length_append (a b : string) :
  length (a ++ b) = (length a + length b)%nat.
Proof.
  induction a as [|x a IH]; simpl; [reflexivity | now rewrite IH].
Qed.

Lemma append_inv_r (a b c : string) : a ++ b = a ++ c -> b = c.
Proof.
  induction a as [|x a IH]; simpl; intros H; [exact H|].
  injection H as H. auto.
Qed.

(** Linear arithmetic with quotients and remainders by constants. *)
Ltac dlia := Z.to_euclidean_division_equations; lia.

Lemma digit_cases (d : Z) :
  0 <= d < 10 ->
  d = 0 \/ d = 1 \/ d = 2 \/ d = 3 \/ d = 4 \/ d = 5 \/ d = 6 \/ d = 7
  \/ d = 8 \/ d = 9.
Proof. lia. Qed.

Ltac each_digit d H :=
  let E := fresh "E" in
  destruct (digit_cases d H) as [E|[E|[E|[E|[E|[E|[E|[E|[E|E]]]]]]]]];
  rewrite E.

Lemma is_digit_digit_char (d : Z) :
  0 <= d < 10 -> is_digit (digit_char d) = true.
Proof. intros H. each_digit d H; reflexivity. Qed.

Lemma digit_val_digit_char (d : Z) :
  0 <= d < 10 -> digit_val (digit_char d) = d.
Proof. intros H. each_digit d H; reflexivity. Qed.

Lemma digits_aux_acc (fuel : nat) :
  forall n acc, digits_aux fuel n acc = digits_aux fuel n "" ++ acc.
Proof.
  induction fuel as [|f IH]; intros n acc; simpl; [reflexivity|].
  destruct (n / 10 =? 0); [reflexivity|].
  rewrite (IH _ (String _ acc)), (IH _ (String _ "")).
  now rewrite append_assoc.
Qed.

Lemma fixed_zero (k : nat) : fixed k 0 = zeros k.
Proof.
  induction k as [|k IH]; simpl; [reflexivity|].
  change (0 / 10) with 0. rewrite IH. clear IH.
  induction k as [|k IH]; simpl; [reflexivity | now rewrite IH].
Qed.

Lemma zeros_snoc (k : nat) : zeros k ++ "0" = zeros (S k).
Proof.
  induction k as [|k IH]; simpl; [reflexivity|].
  now rewrite IH.
Qed.

Lemma pow10_succ (k : nat) : 10 ^ Z.of_nat (S k) = 10 * 10 ^ Z.of_nat k.
Proof. rewrite Nat2Z.inj_succ, Z.pow_succ_r by lia. reflexivity. Qed.

Lemma pow2_succ (k : nat) : 2 ^ Z.of_nat (S k) = 2 * 2 ^ Z.of_nat k.
Proof. rewrite Nat2Z.inj_succ, Z.pow_succ_r by lia. reflexivity. Qed.

(** With enough fuel, the digits of [n] padded to [k] places are its [k]
    low digits. *)
Lemma digits_fixed (k : nat) :
  forall fuel n,
    (0 < k)%nat -> 0 <= n < 10 ^ Z.of_nat k -> n < 2 ^ Z.of_nat fuel ->
    (length (digits_aux fuel n "") <= k)%nat
    /\ fixed k n
       = zeros (k - length (digits_aux fuel n "")) ++ digits_aux fuel n "".
Proof.
  induction k as [|k IH]; intros fuel n Hk Hn Hf; [lia|].
  destruct fuel as [|f].
  - change (2 ^ Z.of_nat 0) with 1 in Hf. assert (n = 0) by lia. subst n.
    simpl digits_aux. simpl length. rewrite Nat.sub_0_r, append_nil_r.
    split; [lia | apply fixed_zero].
  - rewrite pow10_succ in Hn. rewrite pow2_succ in Hf.
    simpl digits_aux. simpl fixed.
    destruct (n / 10 =? 0) eqn:Eq.
    + apply Z.eqb_eq in Eq. rewrite Eq, fixed_zero. simpl length.
      split; [lia|]. now rewrite Nat.sub_succ, Nat.sub_0_r.
    + apply Z.eqb_neq in Eq.
      assert (Hk' : (0 < k)%nat).
      { destruct k; [|lia]. change (10 ^ Z.of_nat 0) with 1 in Hn. dlia. }
      destruct (IH f (n / 10) Hk') as [Hlen Hfix]; [dlia | dlia |].
      rewrite digits_aux_acc, length_append. simpl length.
      split; [lia|].
      rewrite Hfix, append_assoc.
      replace (S k - (length (digits_aux f (n / 10) "") + 1))%nat
        with (k - length (digits_aux f (n / 10) ""))%nat by lia.
      reflexivity.
Qed.

Lemma str_nat_fuel (n : Z) :
  0 <= n -> n < 2 ^ Z.of_nat (S (Z.to_nat (Z.log2 n))).
Proof.
  intros Hn. rewrite Nat2Z.inj_succ, Z2Nat.id by apply Z.log2_nonneg.
  destruct (Z.eq_dec n 0) as [->|Hz]; [reflexivity|].
  apply Z.log2_spec. lia.
Qed.

(** In its range, [format_0d k] prints exactly [k] digits. *)
Lemma format_0d_fixed (k : nat) (n : Z) :
  (0 < k)%nat -> 0 <= n < 10 ^ Z.of_nat k -> format_0d k n = fixed k n.
Proof.
  intros Hk Hn. unfold format_0d, str_nat.
  destruct (n <? 0) eqn:Neg; [apply Z.ltb_lt in Neg; lia|].
  rewrite Z.abs_eq by lia.
  destruct (digits_fixed k _ n Hk Hn (str_nat_fuel n (proj1 Hn))) as [_ ->].
  reflexivity.
Qed.

Lemma length_fixed (k : nat) : forall n, length (fixed k n) = k.
Proof.
  induction k as [|k IH]; intros n; simpl; [reflexivity|].
  rewrite length_append, IH. simpl. lia.
Qed.

Lemma parse_digits_snoc (k : nat) :
  forall s acc,
    parse_digits (S k) s acc
    = match parse_digits k s acc with
      | Some (v, String c r) =>
          if is_digit c then Some (v * 10 + digit_val c, r) else None
      | _ => None
      end.
Proof.
  induction k as [|k IH]; intros s acc.
  - simpl. destruct s as [|c r]; [reflexivity|].
    destruct (is_digit c); reflexivity.
  - change (parse_digits (S (S k)) s acc)
      with (match s with
            | EmptyString => None
            | String c r =>
                if is_digit c
                then parse_digits (S k) r (acc * 10 + digit_val c)
                else None
            end).
    destruct s as [|c r]; [reflexivity|]. simpl parse_digits at 2.
    destruct (is_digit c); [apply IH | reflexivity].
Qed.

(** Reading back the [k] digits of [n]. *)
Lemma parse_digits_fixed (k : nat) :
  forall n rest acc,
    0 <= n < 10 ^ Z.of_nat k ->
    parse_digits k (fixed k n ++ rest) acc
    = Some (acc * 10 ^ Z.of_nat k + n, rest).
Proof.
  induction k as [|k IH]; intros n rest acc Hn.
  - change (10 ^ Z.of_nat 0) with 1 in *. simpl. f_equal. f_equal. lia.
  - rewrite pow10_succ in *. rewrite parse_digits_snoc.
    simpl fixed. rewrite append_assoc. simpl append.
    rewrite IH by dlia.
    rewrite is_digit_digit_char, digit_val_digit_char by dlia.
    f_equal. f_equal. dlia.
Qed.

End TextFacts.

Import TextFacts.

(** ** Calendar arithmetic, ordering and ISO text of [datetime] *)

Module DatetimeFacts.

Lemma valid_ranges (dt : datetime) :
  valid_datetime dt = true ->
  1 <= year dt <= 9999 /\ 1 <= month dt <= 12
  /\ 1 <= day dt <= days_in_month (year dt) (month dt)
  /\ 0 <= hour dt <= 23 /\ 0 <= minute dt <= 59 /\ 0 <= second dt <= 59
  /\ 0 <= microsecond dt <= 999999.
Proof.
  unfold valid_datetime, check_date_fields, check_time_fields.
  rewrite !andb_true_iff, !Z.leb_le. tauto.
Qed.

Lemma month_cases (m : Z) :
  1 <= m <= 12 ->
  m = 1 \/ m = 2 \/ m = 3 \/ m = 4 \/ m = 5 \/ m = 6 \/ m = 7 \/ m = 8
  \/ m = 9 \/ m = 10 \/ m = 11 \/ m = 12.
Proof. lia. Qed.

Ltac each_month m H :=
  let E := fresh "E" in
  destruct (month_cases m H)
    as [E|[E|[E|[E|[E|[E|[E|[E|[E|[E|[E|E]]]]]]]]]]];
  rewrite E in *.

Ltac month_tables :=
  cbv beta iota delta
    [DAYS_IN_MONTH DAYS_BEFORE_MONTH Z.eqb Z.ltb Z.compare Pos.eqb
     Pos.compare Pos.compare_cont andb].

Lemma days_in_month_bounds (y m : Z) :
  1 <= m <= 12 -> 28 <= days_in_month y m <= 31.
Proof.
  intros H. unfold days_in_month.
  destruct (is_leap y); each_month m H; month_tables; lia.
Qed.

(** A year has 365 days, and one more when it is a leap year. *)
Lemma days_before_year_succ (y : Z) :
  days_before_year (y + 1)
  = days_before_year y + 365 + (if is_leap y then 1 else 0).
Proof.
  unfold days_before_year, is_leap.
  replace (y + 1 - 1) with y by lia.
  destruct (y mod 4 =? 0) eqn:E4; destruct (y mod 100 =? 0) eqn:E100;
    destruct (y mod 400 =? 0) eqn:E400; simpl;
    rewrite ?Z.eqb_eq, ?Z.eqb_neq in *; dlia.
Qed.

Lemma days_before_year_mono (y1 y2 : Z) :
  y1 <= y2 -> days_before_year y1 <= days_before_year y2.
Proof.
  intros H. replace y2 with (y1 + Z.of_nat (Z.to_nat (y2 - y1))) by lia.
  generalize (Z.to_nat (y2 - y1)) as n. clear.
  induction n as [|n IH]; [rewrite Z.add_0_r; lia|].
  rewrite Nat2Z.inj_succ.
  replace (y1 + Z.succ (Z.of_nat n)) with (y1 + Z.of_nat n + 1) by lia.
  rewrite days_before_year_succ. destruct (is_leap _); lia.
Qed.

(** The day of the year lies within the year. *)
Lemma day_of_year_bounds (y m d : Z) :
  1 <= m <= 12 -> 1 <= d <= days_in_month y m ->
  1 <= days_before_month y m + d <= 365 + (if is_leap y then 1 else 0).
Proof.
  intros Hm. unfold days_in_month, days_before_month.
  destruct (is_leap y); each_month m Hm; month_tables; lia.
Qed.

(** Within a year, a later month starts after every day of an earlier one. *)
Lemma day_of_year_month_lt (y m1 d1 m2 d2 : Z) :
  1 <= m1 <= 12 -> 1 <= m2 <= 12 ->
  1 <= d1 <= days_in_month y m1 -> 1 <= d2 <= days_in_month y m2 ->
  m1 < m2 ->
  days_before_month y m1 + d1 < days_before_month y m2 + d2.
Proof.
  intros H1 H2. unfold days_in_month, days_before_month.
  destruct (is_leap y); each_month m1 H1; each_month m2 H2;
    month_tables; lia.
Qed.

Lemma ymd2ord_year_lt (y1 m1 d1 y2 m2 d2 : Z) :
  1 <= m1 <= 12 -> 1 <= m2 <= 12 ->
  1 <= d1 <= days_in_month y1 m1 -> 1 <= d2 <= days_in_month y2 m2 ->
  y1 < y2 ->
  ymd2ord y1 m1 d1 < ymd2ord y2 m2 d2.
Proof.
  intros Hm1 Hm2 Hd1 Hd2 Hy. unfold ymd2ord.
  pose proof (day_of_year_bounds y1 m1 d1 Hm1 Hd1) as B1.
  pose proof (day_of_year_bounds y2 m2 d2 Hm2 Hd2) as B2.
  pose proof (days_before_year_succ y1) as S1.
  pose proof (days_before_year_mono (y1 + 1) y2 ltac:(lia)) as M.
  lia.
Qed.

(** The field-wise order of [_cmp] is the order of instants. *)
Lemma fields_cmp_position (a b : datetime) :
  valid_datetime a = true -> valid_datetime b = true ->
  match fields_cmp a b with
  | Lt => position a < position b
  | Eq => position a = position b
  | Gt => position b < position a
  end.
Proof.
  intros Va Vb.
  destruct (valid_ranges a Va) as (Ya & Ma & Da & Ha & Mia & Sa & Ua).
  destruct (valid_ranges b Vb) as (Yb & Mb & Db & Hb & Mib & Sb & Ub).
  unfold fields_cmp, position, toordinal, day_seconds.
  destruct (Z.compare_spec (year a) (year b)) as [Ey|Ly|Ly];
    cbv beta iota delta [lex];
    try (pose proof (ymd2ord_year_lt _ _ _ _ _ _ Ma Mb Da Db Ly); lia);
    try (pose proof (ymd2ord_year_lt _ _ _ _ _ _ Mb Ma Db Da Ly); lia).
  rewrite Ey in *. unfold ymd2ord.
  destruct (Z.compare_spec (month a) (month b)) as [Em|Lm|Lm];
    cbv beta iota delta [lex];
    try (pose proof (day_of_year_month_lt _ _ _ _ _ Ma Mb Da Db Lm); lia);
    try (pose proof (day_of_year_month_lt _ _ _ _ _ Mb Ma Db Da Lm); lia).
  rewrite Em in *.
  destruct (Z.compare_spec (day a) (day b));
    cbv beta iota delta [lex]; try lia.
  destruct (Z.compare_spec (hour a) (hour b));
    cbv beta iota delta [lex]; try lia.
  destruct (Z.compare_spec (minute a) (minute b));
    cbv beta iota delta [lex]; try lia.
  destruct (Z.compare_spec (second a) (second b));
    cbv beta iota delta [lex]; try lia.
  destruct (Z.compare_spec (microsecond a) (microsecond b)); lia.
Qed.

Lemma total_us_of_us (x : Z) : total_us (timedelta_of_us x) = x.
Proof. unfold total_us, timedelta_of_us; simpl. dlia. Qed.

(** The difference of two naive values is the difference of their
    instants. *)
Lemma datetime_sub_position (a b : datetime) (td : timedelta) :
  tzinfo a = None -> tzinfo b = None ->
  datetime_sub a b = Some td ->
  total_us td = position a - position b.
Proof.
  unfold datetime_sub, utcoffset. intros -> ->. simpl.
  intros [= <-]. unfold mk_timedelta. rewrite total_us_of_us.
  unfold position. lia.
Qed.

Lemma isoformat_naive (c : wallclock) :
  valid_wallclock c = true -> isoformat (naive c) = iso_text c.
Proof.
  intros V. destruct (valid_ranges _ V) as (Y & Mo & D & H & Mi & S & U).
  pose proof (days_in_month_bounds (wc_year c) _ Mo) as B.
  simpl in Y, Mo, D, H, Mi, S, U, B.
  unfold isoformat, format_time, iso_text, utcoffset, format_offset.
  cbn [naive year month day hour minute second microsecond tzinfo append].
  rewrite !format_0d_fixed
    by (try apply Nat.lt_0_succ; change (10 ^ Z.of_nat 2) with 100;
        change (10 ^ Z.of_nat 4) with 10000;
        change (10 ^ Z.of_nat 6) with 1000000; lia).
  now rewrite append_nil_r.
Qed.

Lemma field_fixed_sep (k : nat) (n : Z) (c : ascii) (rest : string) :
  0 <= n < 10 ^ Z.of_nat k ->
  field k (Some c) (fixed k n ++ String c rest) = Some (n, rest).
Proof.
  intros H. unfold field, expect.
  rewrite parse_digits_fixed by exact H. simpl.
  now rewrite Ascii.eqb_refl.
Qed.

Lemma field_fixed_end (k : nat) (n : Z) (rest : string) :
  0 <= n < 10 ^ Z.of_nat k ->
  field k None (fixed k n ++ rest) = Some (n, rest).
Proof.
  intros H. unfold field. now rewrite parse_digits_fixed by exact H.
Qed.

(** Reading a timestamp back gives the value it was made from, up to the
    [fold] bit, which the text does not carry. *)
Lemma fromisoformat_isoformat (c : wallclock) :
  valid_wallclock c = true ->
  fromisoformat (isoformat (naive c)) = Some (replace_fold (naive c) false).
Proof.
  intros V. rewrite (isoformat_naive c V).
  destruct (valid_ranges _ V) as (Y & Mo & D & H & Mi & S & U).
  pose proof (days_in_month_bounds (wc_year c) _ Mo) as B.
  simpl in Y, Mo, D, H, Mi, S, U, B.
  unfold fromisoformat, iso_text. cbn [append].
  rewrite field_fixed_sep by (change (10 ^ Z.of_nat 4) with 10000; lia).
  do 4 (rewrite field_fixed_sep by (change (10 ^ Z.of_nat 2) with 100; lia)).
  rewrite field_fixed_end by (change (10 ^ Z.of_nat 2) with 100; lia).
  assert (F : parse_fraction
                (if wc_microsecond c =? 0 then ""
                 else String "." (fixed 6 (wc_microsecond c)))
              = Some (wc_microsecond c)).
  { destruct (wc_microsecond c =? 0) eqn:E.
    - apply Z.eqb_eq in E. now rewrite E.
    - unfold parse_fraction. rewrite Ascii.eqb_refl.
      rewrite <- (append_nil_r (fixed 6 _)).
      rewrite parse_digits_fixed
        by (change (10 ^ Z.of_nat 6) with 1000000; lia).
      reflexivity. }
  rewrite F.
  change (valid_datetime _) with (valid_wallclock c). now rewrite V.
Qed.

(** Two readings with the same timestamp denote the same instant. *)
Lemma isoformat_position (a b : wallclock) :
  valid_wallclock a = true -> valid_wallclock b = true ->
  isoformat (naive a) = isoformat (naive b) ->
  position (naive a) = position (naive b).
Proof.
  intros Va Vb E.
  pose proof (fromisoformat_isoformat a Va) as Pa.
  pose proof (fromisoformat_isoformat b Vb) as Pb.
  rewrite E, Pb in Pa. injection Pa as Ey Em Ed Eh Emi Es Eu.
  unfold position, toordinal, day_seconds. simpl. congruence.
Qed.

End DatetimeFacts.

Import DatetimeFacts.

(** ** Encoding a [dict] of strings and reading it back *)

Module JsonFacts.

(** After the escape of [c], the reader has taken in [c]. *)
Lemma loads_escape_char (c : ascii) :
  forall sl acc items rest,
    loads_run (PStr sl acc) items (escape_char c ++ rest)
    = loads_run (PStr sl (snoc acc c)) items rest.
Proof.
  intros sl acc items rest.
  destruct c as [[] [] [] [] [] [] [] []]; reflexivity.
Qed.

Lemma loads_escape (s : string) :
  forall sl acc items rest,
    loads_run (PStr sl acc) items (escape s ++ rest)
    = loads_run (PStr sl (acc ++ s)) items rest.
Proof.
  induction s as [|c s IH]; intros sl acc items rest.
  - simpl. now rewrite append_nil_r.
  - simpl escape. rewrite append_assoc, loads_escape_char, IH.
    unfold snoc. now rewrite append_assoc.
Qed.

(** A quoted literal is read as the string it encodes. *)
Lemma loads_literal (s : string) (sl : slot) items rest :
  loads_run (PStr sl "") items (escape s ++ String dquote rest)
  = loads_run (fst (close_str sl s items)) (snd (close_str sl s items)) rest.
Proof.
  rewrite loads_escape. simpl append.
  change (loads_run (PStr sl s) items (String dquote rest))
    with (let (st', items') := close_str sl s items in
          loads_run st' items' rest).
  now destruct (close_str sl s items).
Qed.

Lemma encode_append (s rest : string) :
  encode_basestring_ascii s ++ rest
  = String dquote (escape s ++ String dquote rest).
Proof.
  unfold encode_basestring_ascii. simpl. now rewrite append_assoc.
Qed.

Lemma dumps_items_str (kvs : list (string * string)) :
  dumps_items json_dumps (map (fun kv => (fst kv, JStr (snd kv))) kvs)
  = dump_items kvs.
Proof.
  induction kvs as [|[k v] r IH]; [reflexivity|].
  destruct r as [|kv r]; [reflexivity|].
  change (dumps_items json_dumps
            (map (fun kv => (fst kv, JStr (snd kv))) ((k, v) :: kv :: r)))
    with (encode_basestring_ascii k ++ ": " ++ encode_basestring_ascii v
          ++ ", " ++ dumps_items json_dumps
                       (map (fun kv => (fst kv, JStr (snd kv))) (kv :: r))).
  now rewrite IH.
Qed.

Lemma json_dumps_str_dict (kvs : list (string * string)) :
  json_dumps (str_dict kvs) = "{" ++ dump_items kvs ++ "}".
Proof.
  unfold str_dict. cbn [json_dumps]. now rewrite dumps_items_str.
Qed.

Lemma loads_member (st : pstate) (k v : string) items rest :
  expects_key st ->
  loads_run st items
    (encode_basestring_ascii k ++ ": " ++ encode_basestring_ascii v ++ rest)
  = loads_run PNext ((k, v) :: items) rest.
Proof.
  intros Hst. rewrite encode_append.
  transitivity (loads_run (PStr SKey "") items
                  (escape k ++ String dquote
                     (": " ++ encode_basestring_ascii v ++ rest))).
  { destruct Hst as [-> | ->]; reflexivity. }
  rewrite loads_literal. simpl fst; simpl snd.
  rewrite encode_append.
  transitivity (loads_run (PStr (SVal k) "") items
                  (escape v ++ String dquote rest)).
  { reflexivity. }
  now rewrite loads_literal.
Qed.

Lemma loads_members (kvs : list (string * string)) :
  forall st items rest,
    expects_key st -> kvs <> [] ->
    loads_run st items (dump_items kvs ++ String "}" rest)
    = loads_run PEnd (rev kvs ++ items) rest.
Proof.
  induction kvs as [|[k v] r IH]; intros st items rest Hst Hne;
    [congruence|].
  cbn [dump_items]. rewrite !append_assoc, loads_member by exact Hst.
  destruct r as [|kv r].
  - reflexivity.
  - rewrite append_assoc.
    transitivity (loads_run PKey ((k, v) :: items)
                    (dump_items (kv :: r) ++ String "}" rest)).
    { reflexivity. }
    rewrite IH by (try (right; reflexivity); discriminate).
    simpl rev. now rewrite <- !app_assoc.
Qed.

(** [json.loads(json.dumps(d)) == d] for a [dict] of strings. *)
Lemma json_loads_dumps (kvs : list (string * string)) :
  json_loads_flat (json_dumps (str_dict kvs)) = Some kvs.
Proof.
  rewrite json_dumps_str_dict. unfold json_loads_flat.
  destruct kvs as [|kv r]; [reflexivity|].
  transitivity (loads_run PFirst [] (dump_items (kv :: r) ++ String "}" "")).
  { reflexivity. }
  rewrite loads_members by (try (left; reflexivity); discriminate).
  rewrite app_nil_r.
  change (Some (rev (rev (kv :: r))) = Some (kv :: r)).
  now rewrite rev_involutive.
Qed.

End JsonFacts.

Import JsonFacts.

(** ** Layout of a timestamp *)

Module LayoutFacts.

Lemma mask_append (a b : string) : mask (a ++ b) = mask a ++ mask b.
Proof.
  induction a as [|c a IH]; simpl; [reflexivity | now rewrite IH].
Qed.

Lemma mask_fixed (k : nat) : forall n, mask (fixed k n) = zeros k.
Proof.
  induction k as [|k IH]; intros n; [reflexivity|].
  simpl fixed. rewrite mask_append, IH. simpl mask.
  rewrite is_digit_digit_char by (apply Z.mod_pos_bound; lia).
  apply zeros_snoc.
Qed.

Lemma mask_iso_text (c : wallclock) :
  mask (iso_text c)
  = if wc_microsecond c =? 0 then seconds_layout else micros_layout.
Proof.
  unfold iso_text.
  destruct (wc_microsecond c =? 0);
    repeat first [ rewrite mask_append | rewrite mask_fixed
                 | progress cbn [mask append] ];
    reflexivity.
Qed.

End LayoutFacts.

Import LayoutFacts.

(** ** What one call of a view does *)

Module ViewFacts.

Section Calls.
Context {Env : Type}.

Lemma home_run (r : HttpRequest) (w : World Env) (c : wallclock) :
  clock w = Some c ->
  home r w = (Ok (json_response (greeting_body (isoformat (naive c)))), w).
Proof.
  intros Hc. unfold home, bind, datetime_now. now rewrite Hc.
Qed.

Lemma home_at (r : HttpRequest) (c : wallclock) (e : Env) :
  home r (mk_world (Some c) e)
  = (Ok (json_response (greeting_body (isoformat (naive c)))),
     mk_world (Some c) e).
Proof. now apply home_run. Qed.

Lemma home_fault (r : HttpRequest) (w : World Env) :
  clock w = None -> home r w = (Raise OSError, w).
Proof.
  intros Hc. unfold home, bind, datetime_now. now rewrite Hc.
Qed.

Lemma health_run (r : HttpRequest) (w : World Env) :
  health r w = (Ok (json_response health_body), w).
Proof. reflexivity. Qed.

Lemma body_of_json_response (kvs : list (string * string)) :
  body_of (json_response kvs) = Some kvs.
Proof. apply json_loads_dumps. Qed.

(** A call hands the world back as it received it. *)
Lemma view_frame (e : endpoint) (r : HttpRequest) (w : World Env) :
  snd (view e r w) = w.
Proof.
  destruct e; cbn [view].
  - destruct (clock w) as [c|] eqn:Hc.
    + now rewrite (home_run r w c Hc).
    + now rewrite (home_fault r w Hc).
  - reflexivity.
Qed.

(** Whatever a call answers has the fixed envelope of its endpoint; only
    the value under [timestamp] is free. *)
Lemma view_shape (e : endpoint) (r : HttpRequest) (w : World Env)
    (resp : HttpResponse) :
  fst (view e r w) = Ok resp ->
  status_code resp = 200
  /\ content_type resp = "application/json"
  /\ exists b,
       body_of resp = Some b
       /\ redact "timestamp" b
          = match e with
            | Greeting => greeting_body ""
            | Health => health_body
            end.
Proof.
  destruct e; cbn [view].
  - destruct (clock w) as [c|] eqn:Hc.
    + rewrite (home_run r w c Hc). intros [= <-].
      repeat split. eexists. split; [apply body_of_json_response|].
      reflexivity.
    + rewrite (home_fault r w Hc). discriminate.
  - rewrite health_run. intros [= <-]. repeat split.
    exists health_body. split; [apply body_of_json_response | reflexivity].
Qed.

Lemma serve_cons (i : invocation) (rest : list invocation) (w : World Env) :
  serve (i :: rest) w
  = (fst (view (target i) (request i) (set_clock (reading i) w))
       :: fst (serve rest (set_clock (reading i) w)),
     snd (serve rest (set_clock (reading i) w))).
Proof.
  simpl.
  pose proof (view_frame (target i) (request i) (set_clock (reading i) w))
    as F.
  destruct (view (target i) (request i) (set_clock (reading i) w))
    as [r w1].
  simpl in F. subst w1.
  now destruct (serve rest (set_clock (reading i) w)).
Qed.

Lemma serve_env (invs : list invocation) :
  forall w : World Env, env (snd (serve invs w)) = env w.
Proof.
  induction invs as [|i rest IH]; intros w; [reflexivity|].
  rewrite serve_cons. simpl snd. now rewrite IH.
Qed.

(** Each answer of a run is the answer of one call of its view. *)
Lemma serve_nth (invs : list invocation) :
  forall (w : World Env) (n : nat) (a : invocation)
         (res : result HttpResponse),
    nth_error invs n = Some a ->
    nth_error (fst (serve invs w)) n = Some res ->
    exists w' : World Env, res = fst (view (target a) (request a) w').
Proof.
  induction invs as [|i rest IH]; intros w n a res Ha Hr.
  - destruct n; discriminate.
  - rewrite serve_cons in Hr. destruct n as [|n]; simpl in Ha, Hr.
    + injection Ha as <-. injection Hr as <-. eauto.
    + eapply IH; eauto.
Qed.

End Calls.

End ViewFacts.

Import ViewFacts.

(** ** The contract of the two views *)

Section Contract.
Context {Env : Type}.

(** C1.  Whatever the request and whatever the clock shows, [home] answers
    with status 200 and a JSON body whose [message] is
    ["Hello from DevOps Stage 1 - Django!"] and whose [status] is
    ["success"]. *)
Theorem home_returns_greeting (r : HttpRequest) (c : wallclock) (e : Env) :
  exists resp,
    fst (home r (mk_world (Some c) e)) = Ok resp
    /\ status_code resp = 200
    /\ content_type resp = "application/json"
    /\ field_of "message" resp = Some "Hello from DevOps Stage 1 - Django!"
    /\ field_of "status" resp = Some "success".
Proof.
  eexists. rewrite home_at. split; [reflexivity|].
  unfold field_of. rewrite body_of_json_response.
  repeat split; reflexivity.
Qed.

(** C2.  Whatever the request, [health] answers with status 200 and the
    one-member JSON object [{"status": "healthy"}], which is also the
    exact text of the body. *)
Theorem health_returns_healthy (r : HttpRequest) (w : World Env) :
  exists resp,
    fst (health r w) = Ok resp
    /\ status_code resp = 200
    /\ content_type resp = "application/json"
    /\ body_of resp = Some [("status", "healthy")]
    /\ content resp = "{" ++ quoted "status" ++ ": " ++ quoted "healthy" ++ "}".
Proof.
  eexists. rewrite health_run. split; [reflexivity|].
  rewrite body_of_json_response. repeat split; reflexivity.
Qed.

(** C3.  The [timestamp] member of the greeting is [isoformat] applied to
    the value [datetime.now()] made of the clock reading of that call. *)
Theorem home_timestamp_is_isoformat_of_clock
    (r : HttpRequest) (c : wallclock) (e : Env) :
  exists resp,
    fst (home r (mk_world (Some c) e)) = Ok resp
    /\ field_of "timestamp" resp = Some (isoformat (naive c)).
Proof.
  eexists. rewrite home_at. split; [reflexivity|].
  unfold field_of. rewrite body_of_json_response. reflexivity.
Qed.

(** C4.  Two greetings whose clock readings are one second apart, the
    second one later, carry different [timestamp] texts; both texts read
    back as datetimes, and the first reads back strictly before the
    second. *)
Theorem home_timestamps_one_second_apart
    (r1 r2 : HttpRequest) (e1 e2 : Env) (c1 c2 : wallclock) :
  valid_wallclock c1 = true ->
  valid_wallclock c2 = true ->
  datetime_sub (naive c2) (naive c1) = Some (mk_timedelta 0 1 0) ->
  exists resp1 resp2 ts1 ts2 p1 p2,
    fst (home r1 (mk_world (Some c1) e1)) = Ok resp1
    /\ fst (home r2 (mk_world (Some c2) e2)) = Ok resp2
    /\ field_of "timestamp" resp1 = Some ts1
    /\ field_of "timestamp" resp2 = Some ts2
    /\ ts1 <> ts2
    /\ fromisoformat ts1 = Some p1
    /\ fromisoformat ts2 = Some p2
    /\ datetime_lt p1 p2 = Some true.
Proof.
  intros V1 V2 Hsub.
  apply datetime_sub_position in Hsub; [|reflexivity|reflexivity].
  change (total_us (mk_timedelta 0 1 0)) with 1000000 in Hsub.
  exists (json_response (greeting_body (isoformat (naive c1)))),
         (json_response (greeting_body (isoformat (naive c2)))),
         (isoformat (naive c1)), (isoformat (naive c2)),
         (replace_fold (naive c1) false), (replace_fold (naive c2) false).
  rewrite !home_at.
  unfold field_of. rewrite !body_of_json_response.
  repeat (split; [reflexivity|]).
  split; [|split; [|split]].
  - intros E. apply isoformat_position in E; [lia | exact V1 | exact V2].
  - now apply fromisoformat_isoformat.
  - now apply fromisoformat_isoformat.
  - pose proof (fields_cmp_position (replace_fold (naive c1) false)
                  (replace_fold (naive c2) false) V1 V2) as O.
    unfold datetime_lt, datetime_cmp. simpl option_timedelta_eqb.
    change (position (replace_fold (naive c1) false))
      with (position (naive c1)) in O.
    change (position (replace_fold (naive c2) false))
      with (position (naive c2)) in O.
    destruct (fields_cmp _ _); [lia | reflexivity | lia].
Qed.

(** C5, as amended.  For a reading in range, the [timestamp] of the
    greeting reads back as a datetime and is laid out as date, ['T'] and
    time; the six-digit fraction follows exactly when the microsecond of
    the reading is not zero. *)
Theorem home_timestamp_layout (r : HttpRequest) (c : wallclock) (e : Env) :
  valid_wallclock c = true ->
  exists resp ts,
    fst (home r (mk_world (Some c) e)) = Ok resp
    /\ field_of "timestamp" resp = Some ts
    /\ fromisoformat ts = Some (replace_fold (naive c) false)
    /\ iso_with_fraction ts = negb (wc_microsecond c =? 0)
    /\ iso_to_seconds ts = (wc_microsecond c =? 0).
Proof.
  intros V. exists (json_response (greeting_body (isoformat (naive c)))),
                   (isoformat (naive c)).
  rewrite home_at.
  unfold field_of. rewrite body_of_json_response.
  repeat (split; [reflexivity|]).
  split; [now apply fromisoformat_isoformat|].
  unfold iso_with_fraction, iso_to_seconds.
  rewrite (isoformat_naive c V), mask_iso_text.
  destruct (wc_microsecond c =? 0); split; reflexivity.
Qed.

(** C6.  Neither view looks at its request: on the same world, two
    requests get the same answer and leave the same world. *)
Theorem views_ignore_request (r1 r2 : HttpRequest) (w : World Env) :
  home r1 w = home r2 w /\ health r1 w = health r2 w.
Proof. split; reflexivity. Qed.

(** C7.  A call of either view hands the world back untouched; over any
    run of calls the environment ends as it began; and any two answers of
    the same endpoint in a run agree on status, content type and body,
    except for the value under [timestamp]. *)
Theorem views_leave_state_unchanged
    (invs : list invocation) (w : World Env) :
  (forall ep r (w' : World Env), snd (view ep r w') = w')
  /\ env (snd (serve invs w)) = env w
  /\ forall i j a b ra rb,
       nth_error invs i = Some a ->
       nth_error invs j = Some b ->
       target a = target b ->
       nth_error (fst (serve invs w)) i = Some (Ok ra) ->
       nth_error (fst (serve invs w)) j = Some (Ok rb) ->
       same_but "timestamp" ra rb.
Proof.
  split; [apply view_frame|]. split; [apply serve_env|].
  intros i j a b ra rb Ha Hb Hab Hra Hrb.
  destruct (serve_nth invs w i a _ Ha Hra) as [wa Ea].
  destruct (serve_nth invs w j b _ Hb Hrb) as [wb Eb].
  symmetry in Ea, Eb. rewrite Hab in Ea.
  destruct (view_shape _ _ _ _ Ea) as (Sa & Ta & ba & Ba & Ra).
  destruct (view_shape _ _ _ _ Eb) as (Sb & Tb & bb & Bb & Rb).
  unfold same_but. rewrite Sa, Sb, Ta, Tb.
  repeat split. exists ba, bb. repeat split; try assumption.
  now rewrite Ra, Rb.
Qed.

(** C8.  When the clock can be read, [home] does not raise: it answers
    with status 200, for every request and every reading.  [health] does
    not raise in any world, readable clock or not. *)
Theorem views_cannot_fail :
  (forall (r : HttpRequest) (c : wallclock) (e : Env),
     exists resp,
       fst (home r (mk_world (Some c) e)) = Ok resp
       /\ status_code resp = 200)
  /\ (forall (r : HttpRequest) (w : World Env),
        exists resp,
          fst (health r w) = Ok resp /\ status_code resp = 200).
Proof.
  split.
  - intros r c e. eexists. rewrite home_at.
    split; reflexivity.
  - intros r w. eexists. rewrite health_run. split; reflexivity.
Qed.

(** C9.  [health] is constant: any two calls, on any requests and in any
    worlds (so at any clock readings), give the same answer. *)
Theorem health_is_constant (r1 r2 : HttpRequest) (w1 w2 : World Env) :
  fst (health r1 w1) = fst (health r2 w2).
Proof. reflexivity. Qed.

(** C10.  The [timestamp] of the greeting is the text of a naive value:
    it is [isoformat] of a datetime without [tzinfo], and for a reading in
    range it ends in no timezone designator, neither ['Z'] nor a UTC
    offset. *)
Theorem home_timestamp_is_naive (r : HttpRequest) (c : wallclock) (e : Env) :
  valid_wallclock c = true ->
  exists resp ts dt,
    fst (home r (mk_world (Some c) e)) = Ok resp
    /\ field_of "timestamp" resp = Some ts
    /\ ts = isoformat dt
    /\ tzinfo dt = None
    /\ has_tz_designator ts = false.
Proof.
  intros V. exists (json_response (greeting_body (isoformat (naive c)))),
                   (isoformat (naive c)), (naive c).
  rewrite home_at.
  unfold field_of. rewrite body_of_json_response.
  repeat (split; [reflexivity|]).
  unfold has_tz_designator.
  rewrite (isoformat_naive c V), mask_iso_text.
  destruct (wc_microsecond c =? 0); reflexivity.
Qed.

End Contract.

(** ** The contract at concrete calls *)

(** The greeting at noon sharp: the wire text, with the second-precision
    timestamp. *)
Example home_at_noon :
  fst (home get_root (mk_world (Some noon) tt))
  = Ok {| status_code := 200;
          content_type := "application/json";
          content :=
            "{" ++ quoted "message" ++ ": "
            ++ quoted "Hello from DevOps Stage 1 - Django!" ++ ", "
            ++ quoted "status" ++ ": " ++ quoted "success" ++ ", "
            ++ quoted "timestamp" ++ ": " ++ quoted "2024-01-01T12:00:00"
            ++ "}" |}.
Proof. reflexivity. Qed.

(** With an unreadable clock the greeting raises and [health] still
    answers. *)
Example unreadable_clock :
  fst (home get_root (mk_world None tt)) = Raise OSError
  /\ fst (health get_root (mk_world None tt))
     = Ok (json_response health_body).
Proof. split; reflexivity. Qed.

(** An aware value does end in a designator. *)
Example aware_has_designator :
  isoformat (mk_datetime 2024 1 1 12 0 0 0
               (Some (mk_timedelta 0 19800 0)) false)
  = "2024-01-01T12:00:00+05:30"
  /\ has_tz_designator "2024-01-01T12:00:00+05:30" = true
  /\ has_tz_designator "2024-01-01T12:00:00Z" = true.
Proof. repeat split; reflexivity. Qed.

(** C4 at the turn of the year 2025. *)
Lemma home_timestamps_one_second_apart_witness :
  valid_wallclock new_year_eve = true
  /\ valid_wallclock new_year = true
  /\ datetime_sub (naive new_year) (naive new_year_eve)
     = Some (mk_timedelta 0 1 0)
  /\ exists resp1 resp2 ts1 ts2 p1 p2,
       fst (home get_root (mk_world (Some new_year_eve) tt)) = Ok resp1
       /\ fst (home post_health (mk_world (Some new_year) tt)) = Ok resp2
       /\ field_of "timestamp" resp1 = Some ts1
       /\ field_of "timestamp" resp2 = Some ts2
       /\ ts1 <> ts2
       /\ fromisoformat ts1 = Some p1
       /\ fromisoformat ts2 = Some p2
       /\ datetime_lt p1 p2 = Some true.
Proof.
  split; [reflexivity|]. split; [reflexivity|]. split; [reflexivity|].
  apply (@home_timestamps_one_second_apart unit get_root post_health tt tt
           new_year_eve new_year); reflexivity.
Defined.

(** C5 as the specification words it fails at noon sharp: the microsecond
    is zero and the timestamp [2024-01-01T12:00:00] has no fraction. *)
Lemma home_timestamp_fraction_counterexample :
  ~ (forall (r : HttpRequest) (c : wallclock) (resp : HttpResponse)
            (ts : string),
       valid_wallclock c = true ->
       fst (home r (mk_world (Some c) tt)) = Ok resp ->
       field_of "timestamp" resp = Some ts ->
       iso_with_fraction ts = true).
Proof.
  intros H.
  specialize (H get_root noon
                (json_response (greeting_body "2024-01-01T12:00:00"))
                "2024-01-01T12:00:00" eq_refl eq_refl eq_refl).
  discriminate H.
Qed.

(** C5 as amended, at noon sharp. *)
Lemma home_timestamp_layout_witness :
  valid_wallclock noon = true
  /\ exists resp ts,
       fst (home get_root (mk_world (Some noon) tt)) = Ok resp
       /\ field_of "timestamp" resp = Some ts
       /\ fromisoformat ts = Some (replace_fold (naive noon) false)
       /\ iso_with_fraction ts = negb (wc_microsecond noon =? 0)
       /\ iso_to_seconds ts = (wc_microsecond noon =? 0).
Proof.
  split; [reflexivity|].
  apply (@home_timestamp_layout unit get_root noon tt); reflexivity.
Defined.

(** C7 on a run of three calls: two greetings a second apart around a
    health probe made while the clock cannot be read. *)
Lemma views_leave_state_unchanged_witness :
  same_but "timestamp"
    (json_response (greeting_body (isoformat (naive new_year_eve))))
    (json_response (greeting_body (isoformat (naive new_year)))).
Proof.
  apply (proj2 (proj2
           (@views_leave_state_unchanged unit
              [mk_invocation Greeting get_root (Some new_year_eve);
               mk_invocation Health post_health None;
               mk_invocation Greeting post_health (Some new_year)]
              (mk_world None tt)))
           0%nat 2%nat
           (mk_invocation Greeting get_root (Some new_year_eve))
           (mk_invocation Greeting post_health (Some new_year)));
    reflexivity.
Defined.

(** C10 at the turn of the year 2025. *)
Lemma home_timestamp_is_naive_witness :
  valid_wallclock new_year = true
  /\ exists resp ts dt,
       fst (home get_root (mk_world (Some new_year) tt)) = Ok resp
       /\ field_of "timestamp" resp = Some ts
       /\ ts = isoformat dt
       /\ tzinfo dt = None
       /\ has_tz_designator ts = false.
Proof.
  split; [reflexivity|].
  apply (@home_timestamp_is_naive unit get_root new_year tt); reflexivity.
Defined.

(** * Further properties of the two views *)

(** ** The characters of a body *)

Module WireFacts.

Lemma all_chars_append (p : ascii -> bool) (a b : string) :
  all_chars p (a ++ b) = all_chars p a && all_chars p b.
Proof.
  induction a as [|c a IH]; simpl; [reflexivity|].
  now rewrite IH, andb_assoc.
Qed.

Lemma escape_char_printable (c : ascii) :
  all_chars printable (escape_char c) = true.
Proof. destruct c as [[] [] [] [] [] [] [] []]; reflexivity. Qed.

Lemma escape_printable (s : string) : all_chars printable (escape s) = true.
Proof.
  induction s as [|c s IH]; [reflexivity|].
  simpl escape. now rewrite all_chars_append, escape_char_printable, IH.
Qed.

Lemma encode_printable (s : string) :
  all_chars printable (encode_basestring_ascii s) = true.
Proof.
  unfold encode_basestring_ascii.
  change (all_chars printable (String dquote (escape s ++ String dquote "")))
    with (all_chars printable (escape s ++ String dquote "")).
  now rewrite all_chars_append, escape_printable.
Qed.

Lemma dump_items_printable (kvs : list (string * string)) :
  all_chars printable (dump_items kvs) = true.
Proof.
  induction kvs as [|[k v] r IH]; [reflexivity|].
  cbn [dump_items]. rewrite !all_chars_append, !encode_printable.
  destruct r as [|kv r]; [reflexivity|].
  rewrite all_chars_append, IH. reflexivity.
Qed.

(** A [dict] of strings is written in printable ASCII only. *)
Lemma json_dumps_printable (kvs : list (string * string)) :
  all_chars printable (json_dumps (str_dict kvs)) = true.
Proof.
  rewrite json_dumps_str_dict.
  change (all_chars printable ("{" ++ dump_items kvs ++ "}"))
    with (all_chars printable (dump_items kvs ++ "}")).
  now rewrite all_chars_append, dump_items_printable.
Qed.

Lemma escape_char_plain (c : ascii) :
  plain c = true -> escape_char c = String c "".
Proof.
  intros H.
  destruct c as [[] [] [] [] [] [] [] []];
    first [ reflexivity | vm_compute in H; discriminate H ].
Qed.

(** A text of plain characters is its own escape. *)
Lemma escape_plain (s : string) : all_chars plain s = true -> escape s = s.
Proof.
  induction s as [|c s IH]; [reflexivity|].
  simpl. intros H. apply andb_true_iff in H as [Hc Hs].
  now rewrite (escape_char_plain c Hc), (IH Hs).
Qed.

Lemma digits_aux_plain (fuel : nat) :
  forall n acc,
    all_chars plain acc = true ->
    all_chars plain (digits_aux fuel n acc) = true.
Proof.
  induction fuel as [|f IH]; intros n acc Hacc; [exact Hacc|].
  assert (Hd : all_chars plain (String (digit_char (n mod 10)) acc) = true).
  { simpl. rewrite Hacc, andb_true_r.
    assert (B : 0 <= n mod 10 < 10) by (apply Z.mod_pos_bound; lia).
    each_digit (n mod 10) B; reflexivity. }
  simpl. destruct (n / 10 =? 0); [exact Hd | now apply IH].
Qed.

Lemma zeros_plain (k : nat) : all_chars plain (zeros k) = true.
Proof. induction k as [|k IH]; [reflexivity | exact IH]. Qed.

Lemma format_0d_plain (k : nat) (n : Z) :
  all_chars plain (format_0d k n) = true.
Proof.
  unfold format_0d, str_nat.
  destruct (n <? 0).
  - change (all_chars plain (String "-" ?s)) with (all_chars plain s).
    rewrite all_chars_append, zeros_plain. now apply digits_aux_plain.
  - rewrite all_chars_append, zeros_plain. now apply digits_aux_plain.
Qed.

(** The timestamp of a naive value needs no escaping, whatever its
    fields. *)
Lemma isoformat_naive_plain (c : wallclock) :
  all_chars plain (isoformat (naive c)) = true.
Proof.
  unfold isoformat, format_time, utcoffset, format_offset.
  cbn [naive year month day hour minute second microsecond tzinfo].
  repeat first [ rewrite all_chars_append | rewrite format_0d_plain ].
  destruct (wc_microsecond c =? 0); [reflexivity|].
  rewrite all_chars_append, format_0d_plain. reflexivity.
Qed.

Lemma encode_plain (s : string) :
  all_chars plain s = true -> encode_basestring_ascii s = quoted s.
Proof.
  intros H. unfold encode_basestring_ascii, quoted.
  now rewrite (escape_plain s H).
Qed.

(** The envelope of a greeting, written out. *)
Lemma greeting_content (c : wallclock) :
  content (json_response (greeting_body (isoformat (naive c))))
  = greeting_text (isoformat (naive c)).
Proof.
  cbn [content json_response]. rewrite json_dumps_str_dict.
  cbn [dump_items greeting_body].
  rewrite (encode_plain _ (isoformat_naive_plain c)).
  generalize (isoformat (naive c)) as ts. intros ts.
  unfold greeting_text, quoted, encode_basestring_ascii.
  cbn [escape escape_char append]. simpl.
  now rewrite !append_assoc.
Qed.

End WireFacts.

Import WireFacts.

(** ** Timestamps compared as text *)

Module OrderFacts.

Lemma lex_eq_r (c : comparison) : lex c Eq = c.
Proof. now destruct c. Qed.

(** Digits compare as the numbers they stand for. *)
Lemma compare_digit_char (x y : Z) :
  0 <= x < 10 -> 0 <= y < 10 ->
  Ascii.compare (digit_char x) (digit_char y) = (x ?= y).
Proof.
  intros Hx Hy. each_digit x Hx; each_digit y Hy; reflexivity.
Qed.

Lemma compare_same_head (c : ascii) (a b : string) :
  String.compare (String c a) (String c b) = String.compare a b.
Proof.
  simpl. assert (E : Ascii.compare c c = Eq).
  { unfold Ascii.compare. apply N.compare_refl. }
  now rewrite E.
Qed.

(** Comparing by the quotient and then by the remainder is comparing the
    numbers. *)
Lemma lex_div_mod (a b : Z) (k : comparison) :
  lex (a / 10 ?= b / 10) (lex (a mod 10 ?= b mod 10) k) = lex (a ?= b) k.
Proof.
  destruct (Z.compare_spec (a / 10) (b / 10)) as [Eq|Lq|Lq];
    destruct (Z.compare_spec (a mod 10) (b mod 10)) as [Er|Lr|Lr];
    destruct (Z.compare_spec a b) as [E|L|L];
    cbv beta iota delta [lex]; try reflexivity; exfalso; dlia.
Qed.

(** Two numbers printed at the same width compare, as text, as the
    numbers do; on a tie the comparison goes on with what follows. *)
Lemma compare_fixed (k : nat) :
  forall a b r1 r2,
    String.compare (fixed k a ++ r1) (fixed k b ++ r2)
    = lex (a mod 10 ^ Z.of_nat k ?= b mod 10 ^ Z.of_nat k)
          (String.compare r1 r2).
Proof.
  induction k as [|k IH]; intros a b r1 r2.
  - change (10 ^ Z.of_nat 0) with 1. now rewrite !Z.mod_1_r.
  - simpl fixed. rewrite !append_assoc. simpl append. rewrite IH.
    simpl String.compare.
    rewrite compare_digit_char by (apply Z.mod_pos_bound; lia).
    rewrite pow10_succ.
    assert (P : 0 < 10 ^ Z.of_nat k) by (apply Z.pow_pos_nonneg; lia).
    set (p := 10 ^ Z.of_nat k) in *.
    assert (Qa : (a mod (10 * p)) / 10 = (a / 10) mod p).
    { rewrite Z.rem_mul_r by lia.
      rewrite (Z.mul_comm 10), Z.div_add by lia.
      rewrite (Z.div_small (a mod 10)) by (apply Z.mod_pos_bound; lia).
      reflexivity. }
    assert (Qb : (b mod (10 * p)) / 10 = (b / 10) mod p).
    { rewrite Z.rem_mul_r by lia.
      rewrite (Z.mul_comm 10), Z.div_add by lia.
      rewrite (Z.div_small (b mod 10)) by (apply Z.mod_pos_bound; lia).
      reflexivity. }
    assert (Ra : (a mod (10 * p)) mod 10 = a mod 10).
    { rewrite Z.rem_mul_r by lia.
      rewrite (Z.mul_comm 10), Z.mod_add by lia.
      apply Z.mod_mod. lia. }
    assert (Rb : (b mod (10 * p)) mod 10 = b mod 10).
    { rewrite Z.rem_mul_r by lia.
      rewrite (Z.mul_comm 10), Z.mod_add by lia.
      apply Z.mod_mod. lia. }
    rewrite <- (lex_div_mod (a mod (10 * p)) (b mod (10 * p))).
    rewrite Qa, Qb, Ra, Rb.
    destruct (a mod 10 ?= b mod 10); reflexivity.
Qed.

Lemma compare_fixed_small (k : nat) (a b : Z) (r1 r2 : string) :
  0 <= a < 10 ^ Z.of_nat k -> 0 <= b < 10 ^ Z.of_nat k ->
  String.compare (fixed k a ++ r1) (fixed k b ++ r2)
  = lex (a ?= b) (String.compare r1 r2).
Proof.
  intros Ha Hb. rewrite compare_fixed.
  now rewrite (Z.mod_small a), (Z.mod_small b).
Qed.

(** The text order of two timestamps is the field-wise order of the
    readings. *)
Lemma compare_iso_text (a b : wallclock) :
  valid_wallclock a = true -> valid_wallclock b = true ->
  String.compare (iso_text a) (iso_text b) = fields_cmp (naive a) (naive b).
Proof.
  intros Va Vb.
  destruct (valid_ranges _ Va) as (Ya & Ma & Da & Ha & Mia & Sa & Ua).
  destruct (valid_ranges _ Vb) as (Yb & Mb & Db & Hb & Mib & Sb & Ub).
  pose proof (days_in_month_bounds (wc_year a) _ Ma) as Ba.
  pose proof (days_in_month_bounds (wc_year b) _ Mb) as Bb.
  simpl in Ya, Ma, Da, Ha, Mia, Sa, Ua, Ba, Yb, Mb, Db, Hb, Mib, Sb, Ub, Bb.
  unfold iso_text, fields_cmp.
  cbn [naive year month day hour minute second microsecond append].
  rewrite compare_fixed_small
    by (change (10 ^ Z.of_nat 4) with 10000; lia).
  rewrite compare_same_head.
  do 5 (rewrite compare_fixed_small
          by (change (10 ^ Z.of_nat 2) with 100; lia);
        rewrite ?compare_same_head).
  do 6 f_equal.
  destruct (wc_microsecond a =? 0) eqn:Ea;
    destruct (wc_microsecond b =? 0) eqn:Eb;
    rewrite ?Z.eqb_eq, ?Z.eqb_neq in *.
  - rewrite Ea, Eb. reflexivity.
  - rewrite Ea. change (Lt = (0 ?= wc_microsecond b)).
    symmetry. apply Z.compare_lt_iff. lia.
  - rewrite Eb. change (Gt = (wc_microsecond a ?= 0)).
    symmetry. apply Z.compare_gt_iff. lia.
  - rewrite compare_same_head.
    rewrite <- (append_nil_r (fixed 6 (wc_microsecond a))).
    rewrite <- (append_nil_r (fixed 6 (wc_microsecond b))).
    rewrite compare_fixed_small
      by (change (10 ^ Z.of_nat 6) with 1000000; lia).
    apply lex_eq_r.
Qed.

End OrderFacts.

Import OrderFacts.

(** ** What else the two views guarantee *)

Section Further.
Context {Env : Type}.

(** X1.  The body of a greeting is, character for character, the object
    with the three members [message], [status] and [timestamp] in this
    order, the timestamp copied in without any escape; read back it has
    these three members and no other. *)
Theorem home_body_exact (r : HttpRequest) (c : wallclock) (e : Env) :
  exists resp,
    fst (home r (mk_world (Some c) e)) = Ok resp
    /\ content resp = greeting_text (isoformat (naive c))
    /\ body_of resp
       = Some [("message", "Hello from DevOps Stage 1 - Django!");
               ("status", "success");
               ("timestamp", isoformat (naive c))].
Proof.
  eexists. rewrite home_at. split; [reflexivity|].
  split; [apply greeting_content | apply body_of_json_response].
Qed.

(** X2.  Whatever a view answers is written in printable ASCII: no
    control character and no byte above ['~'] reaches the body. *)
Theorem views_answer_in_printable_ascii :
  (forall (r : HttpRequest) (c : wallclock) (e : Env),
     exists resp,
       fst (home r (mk_world (Some c) e)) = Ok resp
       /\ all_chars printable (content resp) = true)
  /\ (forall (r : HttpRequest) (w : World Env),
        exists resp,
          fst (health r w) = Ok resp
          /\ all_chars printable (content resp) = true).
Proof.
  split.
  - intros r c e. eexists. rewrite home_at. split; [reflexivity|].
    apply json_dumps_printable.
  - intros r w. eexists. rewrite health_run. split; [reflexivity|].
    apply json_dumps_printable.
Qed.

(** X3.  Two greetings are the same answer exactly when their readings
    agree on year, month, day, hour, minute, second and microsecond: the
    timestamp loses nothing of the reading but the [fold] bit. *)
Theorem home_same_answer_iff
    (r1 r2 : HttpRequest) (e1 e2 : Env) (c1 c2 : wallclock) :
  valid_wallclock c1 = true ->
  valid_wallclock c2 = true ->
  fst (home r1 (mk_world (Some c1) e1)) = fst (home r2 (mk_world (Some c2) e2))
  <-> replace_fold (naive c1) false = replace_fold (naive c2) false.
Proof.
  intros V1 V2. rewrite !home_at. cbn [fst]. split.
  - intros H.
    assert (B : Some (greeting_body (isoformat (naive c1)))
                = Some (greeting_body (isoformat (naive c2)))).
    { rewrite <- !body_of_json_response. congruence. }
    injection B as B.
    pose proof (fromisoformat_isoformat c1 V1) as P1.
    pose proof (fromisoformat_isoformat c2 V2) as P2.
    rewrite B, P2 in P1. congruence.
  - intros H.
    change (isoformat (naive c1))
      with (isoformat (replace_fold (naive c1) false)).
    change (isoformat (naive c2))
      with (isoformat (replace_fold (naive c2) false)).
    now rewrite H.
Qed.

(** X4.  Timestamps sort as the clock runs: comparing the [timestamp]
    texts of two greetings character by character gives the result of
    comparing the two datetimes the views read. *)
Theorem home_timestamps_sort_chronologically
    (r1 r2 : HttpRequest) (e1 e2 : Env) (c1 c2 : wallclock) :
  valid_wallclock c1 = true ->
  valid_wallclock c2 = true ->
  exists resp1 resp2 ts1 ts2,
    fst (home r1 (mk_world (Some c1) e1)) = Ok resp1
    /\ fst (home r2 (mk_world (Some c2) e2)) = Ok resp2
    /\ field_of "timestamp" resp1 = Some ts1
    /\ field_of "timestamp" resp2 = Some ts2
    /\ datetime_cmp (naive c1) (naive c2) = Some (String.compare ts1 ts2).
Proof.
  intros V1 V2.
  exists (json_response (greeting_body (isoformat (naive c1)))),
         (json_response (greeting_body (isoformat (naive c2)))),
         (isoformat (naive c1)), (isoformat (naive c2)).
  rewrite !home_at. unfold field_of. rewrite !body_of_json_response.
  repeat (split; [reflexivity|]).
  rewrite (isoformat_naive c1 V1), (isoformat_naive c2 V2).
  rewrite (compare_iso_text c1 c2 V1 V2). reflexivity.
Qed.

(** X5.  A greeting raises exactly when the clock cannot be read; the
    refusal of [JsonResponse] for a non-[dict] is never met; and raising or
    not, the world is handed back as it was. *)
Theorem home_raises_only_on_clock (r : HttpRequest) (w : World Env) :
  ((exists ex, fst (home r w) = Raise ex) <-> clock w = None)
  /\ fst (home r w) <> Raise TypeError
  /\ snd (home r w) = w.
Proof.
  destruct (clock w) as [c|] eqn:Hc.
  - rewrite (home_run r w c Hc). repeat split; try discriminate.
    intros [ex H]. discriminate H.
  - rewrite (home_fault r w Hc). repeat split; try discriminate.
    intros _. now exists OSError.
Qed.


(** X7.  Read back, two timestamps are ordered as the readings are: the
    first is strictly before the second exactly when the difference of
    the readings, second minus first, is positive. *)
Theorem home_timestamps_follow_clock
    (r1 r2 : HttpRequest) (e1 e2 : Env) (c1 c2 : wallclock)
    (td : timedelta) :
  valid_wallclock c1 = true ->
  valid_wallclock c2 = true ->
  datetime_sub (naive c2) (naive c1) = Some td ->
  exists resp1 resp2 ts1 ts2 p1 p2,
    fst (home r1 (mk_world (Some c1) e1)) = Ok resp1
    /\ fst (home r2 (mk_world (Some c2) e2)) = Ok resp2
    /\ field_of "timestamp" resp1 = Some ts1
    /\ field_of "timestamp" resp2 = Some ts2
    /\ fromisoformat ts1 = Some p1
    /\ fromisoformat ts2 = Some p2
    /\ datetime_lt p1 p2 = Some (0 <? total_us td)
    /\ (ts1 = ts2 <-> total_us td = 0).
Proof.
  intros V1 V2 Hsub.
  apply datetime_sub_position in Hsub; [|reflexivity|reflexivity].
  exists (json_response (greeting_body (isoformat (naive c1)))),
         (json_response (greeting_body (isoformat (naive c2)))),
         (isoformat (naive c1)), (isoformat (naive c2)),
         (replace_fold (naive c1) false), (replace_fold (naive c2) false).
  rewrite !home_at. unfold field_of. rewrite !body_of_json_response.
  repeat (split; [reflexivity|]).
  pose proof (fields_cmp_position (replace_fold (naive c1) false)
                (replace_fold (naive c2) false) V1 V2) as O.
  change (position (replace_fold (naive c1) false))
    with (position (naive c1)) in O.
  change (position (replace_fold (naive c2) false))
    with (position (naive c2)) in O.
  split; [now apply fromisoformat_isoformat|].
  split; [now apply fromisoformat_isoformat|].
  split.
  - unfold datetime_lt, datetime_cmp. simpl option_timedelta_eqb.
    destruct (fields_cmp _ _); f_equal; symmetry.
    + apply Z.ltb_ge. lia.
    + apply Z.ltb_lt. lia.
    + apply Z.ltb_ge. lia.
  - split.
    + intros E. apply isoformat_position in E; [lia | exact V1 | exact V2].
    + intros Z0.
      rewrite (isoformat_naive c1 V1), (isoformat_naive c2 V2).
      apply String.compare_eq_iff.
      rewrite (compare_iso_text c1 c2 V1 V2).
      change (fields_cmp (naive c1) (naive c2))
        with (fields_cmp (replace_fold (naive c1) false)
                (replace_fold (naive c2) false)).
      destruct (fields_cmp _ _); [reflexivity | lia | lia].
Qed.

(** X8.  A greeting has one of two sizes: the timestamp is 19 characters
    long when the microsecond of the reading is zero and 26 otherwise, and
    the body is the timestamp and 88 characters more. *)
Theorem home_body_length (r : HttpRequest) (c : wallclock) (e : Env) :
  valid_wallclock c = true ->
  exists resp ts,
    fst (home r (mk_world (Some c) e)) = Ok resp
    /\ field_of "timestamp" resp = Some ts
    /\ length ts = (if wc_microsecond c =? 0 then 19%nat else 26%nat)
    /\ length (content resp) = (88 + length ts)%nat.
Proof.
  intros V.
  exists (json_response (greeting_body (isoformat (naive c)))),
         (isoformat (naive c)).
  rewrite home_at. split; [reflexivity|].
  unfold field_of. rewrite body_of_json_response.
  split; [reflexivity|]. rewrite greeting_content. split.
  - rewrite (isoformat_naive c V). unfold iso_text.
    repeat first [ rewrite length_append | rewrite length_fixed ].
    destruct (wc_microsecond c =? 0); [reflexivity|].
    rewrite length_append, length_fixed. reflexivity.
  - generalize (isoformat (naive c)) as ts. intros ts.
    unfold greeting_text, quoted.
    repeat first [ rewrite length_append | progress cbn [length append] ].
    lia.
Qed.

End Further.

(** ** The further properties at concrete calls *)

(** X3 on the two passes through a repeated hour: the readings differ in
    [fold] only and the answers are the same. *)
Lemma home_same_answer_iff_witness :
  valid_wallclock new_year = true
  /\ valid_wallclock (mk_wallclock 2025 1 1 0 0 0 500000 false) = true
  /\ (fst (home get_root (mk_world (Some new_year) tt))
      = fst (home post_health
               (mk_world (Some (mk_wallclock 2025 1 1 0 0 0 500000 false))
                  tt))
      <-> replace_fold (naive new_year) false
          = replace_fold
              (naive (mk_wallclock 2025 1 1 0 0 0 500000 false)) false).
Proof.
  split; [reflexivity|]. split; [reflexivity|].
  apply (@home_same_answer_iff unit get_root post_health tt tt new_year
           (mk_wallclock 2025 1 1 0 0 0 500000 false));
    reflexivity.
Defined.

(** X4 at noon sharp against the last second of 2024: a timestamp without
    fraction against one with. *)
Lemma home_timestamps_sort_chronologically_witness :
  valid_wallclock noon = true
  /\ valid_wallclock new_year_eve = true
  /\ exists resp1 resp2 ts1 ts2,
       fst (home get_root (mk_world (Some noon) tt)) = Ok resp1
       /\ fst (home get_root (mk_world (Some new_year_eve) tt)) = Ok resp2
       /\ field_of "timestamp" resp1 = Some ts1
       /\ field_of "timestamp" resp2 = Some ts2
       /\ datetime_cmp (naive noon) (naive new_year_eve)
          = Some (String.compare ts1 ts2).
Proof.
  split; [reflexivity|]. split; [reflexivity|].
  apply (@home_timestamps_sort_chronologically unit get_root get_root tt tt
           noon new_year_eve); reflexivity.
Defined.

(** X7 with the clock set back: the second reading is noon of the first
    day of 2024, the first one the last second of that year. *)
Lemma home_timestamps_follow_clock_witness :
  valid_wallclock new_year_eve = true
  /\ valid_wallclock noon = true
  /\ datetime_sub (naive noon) (naive new_year_eve)
     = Some (mk_timedelta (-366) 43200 500000)
  /\ exists resp1 resp2 ts1 ts2 p1 p2,
       fst (home get_root (mk_world (Some new_year_eve) tt)) = Ok resp1
       /\ fst (home get_root (mk_world (Some noon) tt)) = Ok resp2
       /\ field_of "timestamp" resp1 = Some ts1
       /\ field_of "timestamp" resp2 = Some ts2
       /\ fromisoformat ts1 = Some p1
       /\ fromisoformat ts2 = Some p2
       /\ datetime_lt p1 p2
          = Some (0 <? total_us (mk_timedelta (-366) 43200 500000))
       /\ (ts1 = ts2 <-> total_us (mk_timedelta (-366) 43200 500000) = 0).
Proof.
  split; [reflexivity|]. split; [reflexivity|]. split; [reflexivity|].
  apply (@home_timestamps_follow_clock unit get_root get_root tt tt
           new_year_eve noon (mk_timedelta (-366) 43200 500000));
    reflexivity.
Defined.

(** X8 at the turn of the year 2025. *)
Lemma home_body_length_witness :
  valid_wallclock new_year = true
  /\ exists resp ts,
       fst (home get_root (mk_world (Some new_year) tt)) = Ok resp
       /\ field_of "timestamp" resp = Some ts
       /\ length ts
          = (if wc_microsecond new_year =? 0 then 19%nat else 26%nat)
       /\ length (content resp) = (88 + length ts)%nat.
Proof.
  split; [reflexivity|].
  apply (@home_body_length unit get_root new_year tt); reflexivity.
Defined.
